(** * The notebook serializer of vscode-jupyter

    A shallow embedding of
    [src/client/datascience/notebook/notebookSerliazer.ts]: the class
    [NotebookSerializer] with its two directions, [deserializeNotebook]
    (bytes of an ipynb file to the editor's [NotebookData]) and [serialize]
    ([NotebookData] or a live [NotebookDocument] to JSON text).

    The serializer is a thin layer over collaborators that live elsewhere
    (the JavaScript runtime, the detect-indent and uuid packages, the VS Code
    API and the extension's own helpers).  They are gathered in one interface,
    [Collaborators]; every theorem holds for any implementation of it, and a
    small reference implementation is used to run the serializer on concrete
    files. *)

From Stdlib Require Import ZArith Ascii String.
From stdpp Require Import gmap strings list fin_maps pretty.

Local Open Scope string_scope.
Local Open Scope Z_scope.

Set Warnings "-register-all".

(** * JavaScript values *)

Module JS.

(** What [JSON.parse] can build, plus [undefined]. A number is an integer:
    the serializer only tests numbers for truthiness and copies them.
    An object is the list of its own properties in insertion order. *)
Inductive JValue : Type :=
| JUndefined
| JNull
| JBool (b : bool)
| JNumber (n : Z)
| JString (s : string)
| JArray (items : list JValue)
| JObject (fields : list (string * JValue)).

(** ToBoolean: what [if (v)], [!v] and [v || w] look at. *)
Definition truthy (v : JValue) : bool :=
  match v with
  | JUndefined | JNull => false
  | JBool b => b
  | JNumber n => negb (n =? 0)
  | JString s => negb (String.eqb s "")
  | JArray _ | JObject _ => true
  end.

(** [v || w] *)
Definition or_else (v w : JValue) : JValue := if truthy v then v else w.

(** Own property of an object literal. *)
Fixpoint lookup_field (k : string) (fields : list (string * JValue)) : option JValue :=
  match fields with
  | [] => None
  | (k', v) :: rest => if String.eqb k k' then Some v else lookup_field k rest
  end.

(** [obj.k = v]: an existing property keeps its place, a new one goes last. *)
Fixpoint set_field (k : string) (v : JValue) (fields : list (string * JValue))
  : list (string * JValue) :=
  match fields with
  | [] => [(k, v)]
  | (k', v') :: rest =>
      if String.eqb k k' then (k', v) :: rest else (k', v') :: set_field k v rest
  end.

(** [v.k] on a value that is neither [undefined] nor [null], for the names the
    serializer reads ([cells], [metadata], [nbformat], [nbformat_minor],
    [length]): an object answers with its own property, an array and a string
    answer [length] only, numbers and booleans have none of them. *)
Definition get (v : JValue) (k : string) : JValue :=
  match v with
  | JObject fields => default JUndefined (lookup_field k fields)
  | JArray items =>
      if String.eqb k "length" then JNumber (Z.of_nat (length items)) else JUndefined
  | JString s =>
      if String.eqb k "length" then JNumber (Z.of_nat (String.length s)) else JUndefined
  | _ => JUndefined
  end.

(** [v?.k] *)
Definition opt_get (v : JValue) (k : string) : JValue :=
  match v with
  | JUndefined | JNull => JUndefined
  | _ => get v k
  end.

(** [v === 0] *)
Definition is_zero (v : JValue) : bool :=
  match v with
  | JNumber n => n =? 0
  | _ => false
  end.

(** The characters of a string as one-character strings. *)
Fixpoint chars (s : string) : list JValue :=
  match s with
  | EmptyString => []
  | String a rest => JString (String a EmptyString) :: chars rest
  end.

(** Index keys: [0], [1], ... paired with the items. *)
Definition indexed (items : list JValue) : list (string * JValue) :=
  imap (fun i v => (pretty i, v)) items.

(** The own enumerable properties copied by [{ ...v }]. *)
Definition spread (v : JValue) : list (string * JValue) :=
  match v with
  | JObject fields => fields
  | JArray items => indexed items
  | JString s => indexed (chars s)
  | _ => []
  end.

(** [v.k = x] as the serializer uses it, on the parsed document. Only an
    object reaches the assignment (nothing else has a [cells] whose [length]
    is 0 and is truthy); other values are left as they are. *)
Definition assign (v : JValue) (k : string) (x : JValue) : JValue :=
  match v with
  | JObject fields => JObject (set_field k x fields)
  | _ => v
  end.

End JS.
Export JS.

(** * The editor's data, failures and the world outside *)

(** The metadata of a notebook ([NotebookDocumentMetadata]) is an open mapping
    from property names to values; [k in data.metadata] is [is_Some (m !! k)]. *)
Abbreviation Metadata := (gmap string JValue).

(** [m.k] *)
Definition prop (m : Metadata) (k : string) : JValue := default JUndefined (m !! k).

(** [k in m] *)
Definition has (m : Metadata) (k : string) : bool := bool_decide (is_Some (m !! k)).

(** [m.with(change)]: a copy of [m] in which the properties of [change] are set. *)
Definition with_ (m : Metadata) (change : list (string * JValue)) : Metadata :=
  foldl (fun acc kv => <[kv.1 := kv.2]> acc) m change.

(** [NotebookData]: what [deserializeNotebook] returns and [serializeNotebook]
    takes. [C] is the type of a cell of the editor. *)
Record NotebookData (C : Type) : Type := mkNotebookData {
  cells : list C;
  metadata : Metadata
}.
Arguments mkNotebookData {C} _ _.
Arguments cells {C} _.
Arguments metadata {C} _.

(** [NotebookDocument]: the live document, recognised by its [viewType]. *)
Record NotebookDocument (C : Type) : Type := mkNotebookDocument {
  viewType : string;
  getCells : list C;
  doc_metadata : Metadata
}.
Arguments mkNotebookDocument {C} _ _ _.
Arguments viewType {C} _.
Arguments getCells {C} _.
Arguments doc_metadata {C} _.

(** The argument of [serialize]: [NotebookDocument | NotebookData]. *)
Inductive Serializable (C : Type) : Type :=
| Document (doc : NotebookDocument C)
| Data (data : NotebookData C).
Arguments Document {C} _.
Arguments Data {C} _.

(** What a call can throw: the [SyntaxError] of [JSON.parse], or whatever a
    collaborator throws, with its message. *)
Inductive Exn : Type :=
| MalformedInputError
| CollaboratorFailure (message : string).

(** What the serializer changes outside its result: the number of tokens
    drawn from the uuid generator, and the documents handed to telemetry,
    latest first. *)
Record World : Type := mkWorld {
  uuid_drawn : nat;
  telemetry_sent : list JValue
}.

(** A computation that may throw and that acts on the world. *)
Definition M (A : Type) : Type := World -> (Exn + A) * World.

#[global] Instance M_ret : MRet M := fun A (x : A) w => (inr x, w).

#[global] Instance M_bind : MBind M := fun A B (f : A -> M B) (m : M A) w =>
  match m w with
  | (inr x, w') => f x w'
  | (inl e, w') => (inl e, w')
  end.

Definition throw {A : Type} (e : Exn) : M A := fun w => (inl e, w).

(** * The collaborators

    What the serializer calls and does not define. [JSON.parse] and the
    telemetry call are the two whose failure the serializer is specified
    against, so they are the two that can throw here; the others are the pure
    functions the serializer takes them for. *)

Class Collaborators : Type := {
  (** a cell of the editor: [NotebookCellData] or [NotebookCell] *)
  VSCCell : Type;
  (** [JSON.parse(text)]; [None] when it throws its [SyntaxError] *)
  JSON_parse : string -> option JValue;
  (** [JSON.stringify(value, undefined, space)] *)
  JSON_stringify : JValue -> string -> string;
  (** [detectIndent(text).indent] *)
  detectIndent : string -> string;
  (** the token returned by the n-th call of [uuid()] *)
  uuid : nat -> string;
  (** [sendLanguageTelemetry(json)]; [Some message] when it throws *)
  sendLanguageTelemetry : JValue -> option string;
  (** [cellLanguageService.getPreferredLanguage(metadata)] *)
  getPreferredLanguage : JValue -> string;
  (** [notebookModelToVSCNotebookData(withoutCells, cells, language, original)] *)
  notebookModelToVSCNotebookData :
    JValue -> JValue -> string -> JValue -> NotebookData VSCCell;
  (** [createJupyterCellFromVSCNotebookCell(cell)] *)
  createJupyterCellFromVSCNotebookCell : VSCCell -> JValue;
  (** [pruneCell(cell)] *)
  pruneCell : JValue -> JValue;
  (** the metadata of [new NotebookData(cells)] *)
  new_NotebookDocumentMetadata : Metadata
}.

(** * The serializer *)

Section Serializer.
Context {host : Collaborators}.

(** [Buffer.from(content).toString()]: the text of the bytes. *)
Definition Buffer_toString (content : list Byte.byte) : string :=
  string_of_list_byte content.

(** [Buffer.from(text, 'utf-8')] *)
Definition Buffer_from (text : string) : list Byte.byte :=
  list_byte_of_string text.

(** A string in a condition: the empty string is falsy. *)
Definition nonempty (s : string) : bool := truthy (JString s).

Definition parse (contents : string) : M JValue :=
  match JSON_parse contents with
  | Some v => mret v
  | None => throw MalformedInputError
  end.

Definition telemetry (json : JValue) : M unit := fun w =>
  let w' := mkWorld (uuid_drawn w) (json :: telemetry_sent w) in
  match sendLanguageTelemetry json with
  | None => (inr tt, w')
  | Some message => (inl (CollaboratorFailure message), w')
  end.

Definition uuid_v4 : M string := fun w =>
  (inr (uuid (uuid_drawn w)), mkWorld (S (uuid_drawn w)) (telemetry_sent w)).

(** The cell of lines 47 to 55. *)
Definition blank_code_cell : JValue :=
  JObject [("cell_type", JString "code");
           ("execution_count", JNull);
           ("metadata", JObject []);
           ("outputs", JArray []);
           ("source", JString "")].

(** Lines 46 to 56: [if (json?.cells?.length === 0) json.cells = [blank]]. *)
Definition ensure_blank_cell (json : JValue) : JValue :=
  if is_zero (opt_get (opt_get json "cells") "length")
  then assign json "cells" (JArray [blank_code_cell])
  else json.

(** [data.metadata = data.metadata.with(change)] *)
Definition update_metadata (data : NotebookData VSCCell) (change : list (string * JValue))
  : NotebookData VSCCell :=
  mkNotebookData (cells data) (with_ (metadata data) change).

(** [new NotebookData([])] *)
Definition empty_NotebookData : NotebookData VSCCell :=
  mkNotebookData [] new_NotebookDocumentMetadata.

Definition deserializeNotebook (content : list Byte.byte) : M (NotebookData VSCCell) :=
  let contents := Buffer_toString content in
  json ← (if nonempty contents then parse contents else mret JUndefined);
  if truthy json && negb (truthy (get json "cells")) then
    mret empty_NotebookData
  else
    let indentAmount := if nonempty contents then detectIndent contents else " " in
    _ ← (if truthy json then telemetry json else mret tt);
    let preferredCellLanguage := getPreferredLanguage (opt_get json "metadata") in
    let json := ensure_blank_cell json in
    let data :=
      notebookModelToVSCNotebookData
        (JObject (set_field "cells" (JArray []) (spread json)))
        (or_else (opt_get json "cells") (JArray []))
        preferredCellLanguage
        (or_else json (JObject [])) in
    id ← uuid_v4;
    let data :=
      update_metadata data [("indentAmount", JString indentAmount); ("__vsc_id", JString id)] in
    let data :=
      if truthy (opt_get json "nbformat")
      then update_metadata data [("nbformat", opt_get json "nbformat")]
      else data in
    let data :=
      if truthy (opt_get json "nbformat_minor")
      then update_metadata data [("nbformat_minor", opt_get json "nbformat_minor")]
      else data in
    mret data.

(** The pieces of [deserializeNotebook], named for the statements below. *)

(** The parsed document: [undefined] for an empty file, [None] when
    [JSON.parse] throws. *)
Definition parsed (content : list Byte.byte) : option JValue :=
  if nonempty (Buffer_toString content)
  then JSON_parse (Buffer_toString content)
  else Some JUndefined.

(** Line 32: [json && !json.cells]. *)
Definition short_circuits (json : JValue) : bool :=
  truthy json && negb (truthy (get json "cells")).

(** Line 37. *)
Definition indent_read (content : list Byte.byte) : string :=
  if nonempty (Buffer_toString content)
  then detectIndent (Buffer_toString content)
  else " ".

(** Lines 44 to 62: the call of the converter. *)
Definition converted (json : JValue) : NotebookData VSCCell :=
  notebookModelToVSCNotebookData
    (JObject (set_field "cells" (JArray []) (spread (ensure_blank_cell json))))
    (or_else (opt_get (ensure_blank_cell json) "cells") (JArray []))
    (getPreferredLanguage (opt_get json "metadata"))
    (or_else (ensure_blank_cell json) (JObject [])).

(** Line 59: the cells handed to the converter, [json?.cells || []], read
    after the blank cell is put in. *)
Definition cells_argument (json : JValue) : JValue :=
  or_else (opt_get (ensure_blank_cell json) "cells") (JArray []).

(** Lines 64 to 69: the schema version laid over the metadata. *)
Definition with_nbformat (json : JValue) (data : NotebookData VSCCell)
  : NotebookData VSCCell :=
  let data :=
    if truthy (opt_get json "nbformat")
    then update_metadata data [("nbformat", opt_get json "nbformat")]
    else data in
  if truthy (opt_get json "nbformat_minor")
  then update_metadata data [("nbformat_minor", opt_get json "nbformat_minor")]
  else data.

(** Lines 57 to 71, once the token is drawn. *)
Definition assembled (content : list Byte.byte) (json : JValue) (id : string)
  : NotebookData VSCCell :=
  with_nbformat (ensure_blank_cell json)
    (update_metadata (converted json)
       [("indentAmount", JString (indent_read content)); ("__vsc_id", JString id)]).

Definition told (json : JValue) (w : World) : World :=
  mkWorld (uuid_drawn w) (json :: telemetry_sent w).

Definition drawn (w : World) : World :=
  mkWorld (S (uuid_drawn w)) (telemetry_sent w).

(** [data.metadata] of either argument of [serialize]. *)
Definition metadata_of (data : Serializable VSCCell) : Metadata :=
  match data with
  | Document doc => doc_metadata doc
  | Data d => metadata d
  end.

(** Lines 92 to 95. *)
Definition indentAmount_of (data : Serializable VSCCell) : string :=
  if has (metadata_of data) "indentAmount" then
    match prop (metadata_of data) "indentAmount" with
    | JString s => s
    | _ => " "
    end
  else " ".

(** Lines 97 to 104: both branches convert and prune every cell in order. *)
Definition serialized_cells (data : Serializable VSCCell) : list JValue :=
  match data with
  | Document doc => map pruneCell (map createJupyterCellFromVSCNotebookCell (getCells doc))
  | Data d => map pruneCell (map createJupyterCellFromVSCNotebookCell (cells d))
  end.

(** The object [json] of [serialize] when it reaches [JSON.stringify]. *)
Definition serialize_json (data : Serializable VSCCell) : JValue :=
  let json :=
    [("cells", JArray []);
     ("metadata", JObject [("orig_nbformat", JNumber 4)]);
     ("nbformat", JNumber 4);
     ("nbformat_minor", JNumber 2)] in
  let json :=
    if has (metadata_of data) "nbformat"
    then set_field "nbformat" (prop (metadata_of data) "nbformat") json
    else json in
  let json :=
    if has (metadata_of data) "nbformat_minor"
    then set_field "nbformat" (prop (metadata_of data) "nbformat_minor") json
    else json in
  let json := set_field "cells" (JArray (serialized_cells data)) json in
  JObject json.

(** The same argument of [serialize] with other metadata. *)
Definition set_metadata (m : Metadata) (data : Serializable VSCCell)
  : Serializable VSCCell :=
  match data with
  | Document doc => Document (mkNotebookDocument (viewType doc) (getCells doc) m)
  | Data d => Data (mkNotebookData (cells d) m)
  end.

Definition serialize (data : Serializable VSCCell) : string :=
  JSON_stringify (serialize_json data) (indentAmount_of data).

Definition serializeNotebookDocument (data : NotebookDocument VSCCell) : string :=
  serialize (Document data).

Definition serializeNotebook (data : NotebookData VSCCell) : list Byte.byte :=
  Buffer_from (serialize (Data data)).

End Serializer.

(** The same collaborators with another [JSON.parse]. *)
Definition with_JSON_parse (other : string -> option JValue) (host : Collaborators)
  : Collaborators := {|
  VSCCell := VSCCell;
  JSON_parse := other;
  JSON_stringify := JSON_stringify;
  detectIndent := detectIndent;
  uuid := uuid;
  sendLanguageTelemetry := sendLanguageTelemetry;
  getPreferredLanguage := getPreferredLanguage;
  notebookModelToVSCNotebookData := notebookModelToVSCNotebookData;
  createJupyterCellFromVSCNotebookCell := createJupyterCellFromVSCNotebookCell;
  pruneCell := pruneCell;
  new_NotebookDocumentMetadata := new_NotebookDocumentMetadata
|}.

(** * Reference collaborators

    Small executable stand-ins, enough to run the serializer on concrete
    files: a reader and a writer for JSON texts with integer numbers and
    strings without escapes, an indentation detector that answers with the
    blanks before the first indented line, a counter for unique tokens, and
    cells of the editor that keep the stored cell next to its language. *)

Module Reference.

Definition dquote : ascii := "034"%char.
Definition newline : ascii := "010"%char.

(** JSON texts are written with apostrophes in the examples; [q] turns every
    apostrophe into a double quote. *)
Fixpoint q (s : string) : string :=
  match s with
  | EmptyString => EmptyString
  | String a rest => String (if Ascii.eqb a "'" then dquote else a) (q rest)
  end.

Definition bytes (s : string) : list Byte.byte := list_byte_of_string (q s).

Definition is_blank (a : ascii) : bool :=
  Ascii.eqb a " " || Ascii.eqb a "009" || Ascii.eqb a newline || Ascii.eqb a "013".

Fixpoint skip_blanks (s : string) : string :=
  match s with
  | String a rest => if is_blank a then skip_blanks rest else s
  | EmptyString => s
  end.

Definition digit_of (a : ascii) : option Z :=
  let n := Z.of_nat (nat_of_ascii a) in
  if (48 <=? n) && (n <=? 57) then Some (n - 48) else None.

Fixpoint read_digits (s : string) (acc : Z) : Z * string :=
  match s with
  | String a rest =>
      match digit_of a with
      | Some d => read_digits rest (10 * acc + d)
      | None => (acc, s)
      end
  | EmptyString => (acc, s)
  end.

(** The characters up to the closing quote; a backslash is not read. *)
Fixpoint read_string (s : string) : option (string * string) :=
  match s with
  | EmptyString => None
  | String a rest =>
      if Ascii.eqb a dquote then Some (EmptyString, rest)
      else if Ascii.eqb a "\" then None
      else match read_string rest with
           | Some (t, rest') => Some (String a t, rest')
           | None => None
           end
  end.

Definition read_number (s : string) : option (JValue * string) :=
  match s with
  | String a rest =>
      if Ascii.eqb a "-" then
        match rest with
        | String b _ =>
            match digit_of b with
            | Some _ => let '(n, r) := read_digits rest 0 in Some (JNumber (- n), r)
            | None => None
            end
        | EmptyString => None
        end
      else
        match digit_of a with
        | Some _ => let '(n, r) := read_digits s 0 in Some (JNumber n, r)
        | None => None
        end
  | EmptyString => None
  end.

Definition read_word (word : string) (v : JValue) (s : string) : option (JValue * string) :=
  if String.prefix word s
  then Some (v, String.substring (String.length word) (String.length s - String.length word) s)
  else None.

Fixpoint read_value (fuel : nat) (s : string) : option (JValue * string) :=
  match fuel with
  | O => None
  | S fuel =>
      match skip_blanks s with
      | EmptyString => None
      | String a rest =>
          if Ascii.eqb a "{" then
            match skip_blanks rest with
            | String b rest' =>
                if Ascii.eqb b "}" then Some (JObject [], rest')
                else read_members fuel rest []
            | EmptyString => None
            end
          else if Ascii.eqb a "[" then
            match skip_blanks rest with
            | String b rest' =>
                if Ascii.eqb b "]" then Some (JArray [], rest')
                else read_elements fuel rest []
            | EmptyString => None
            end
          else if Ascii.eqb a dquote then
            match read_string rest with
            | Some (t, rest') => Some (JString t, rest')
            | None => None
            end
          else if Ascii.eqb a "t" then read_word "true" (JBool true) (String a rest)
          else if Ascii.eqb a "f" then read_word "false" (JBool false) (String a rest)
          else if Ascii.eqb a "n" then read_word "null" JNull (String a rest)
          else read_number (String a rest)
      end
  end
with read_elements (fuel : nat) (s : string) (acc : list JValue) : option (JValue * string) :=
  match fuel with
  | O => None
  | S fuel =>
      match read_value fuel s with
      | Some (v, rest) =>
          match skip_blanks rest with
          | String a rest' =>
              if Ascii.eqb a "," then read_elements fuel rest' (acc ++ [v])
              else if Ascii.eqb a "]" then Some (JArray (acc ++ [v]), rest')
              else None
          | EmptyString => None
          end
      | None => None
      end
  end
with read_members (fuel : nat) (s : string) (acc : list (string * JValue))
  : option (JValue * string) :=
  match fuel with
  | O => None
  | S fuel =>
      match skip_blanks s with
      | String a rest =>
          if Ascii.eqb a dquote then
            match read_string rest with
            | Some (k, rest1) =>
                match skip_blanks rest1 with
                | String c rest2 =>
                    if Ascii.eqb c ":" then
                      match read_value fuel rest2 with
                      | Some (v, rest3) =>
                          match skip_blanks rest3 with
                          | String d rest4 =>
                              if Ascii.eqb d "," then read_members fuel rest4 (set_field k v acc)
                              else if Ascii.eqb d "}" then Some (JObject (set_field k v acc), rest4)
                              else None
                          | EmptyString => None
                          end
                      | None => None
                      end
                    else None
                | EmptyString => None
                end
            | None => None
            end
          else None
      | EmptyString => None
      end
  end.

(** One value, blanks around it, nothing else. *)
Definition read_json (s : string) : option JValue :=
  match read_value (2 * String.length s + 2) s with
  | Some (v, rest) =>
      match skip_blanks rest with
      | EmptyString => Some v
      | _ => None
      end
  | None => None
  end.

(** ** Writing JSON *)

Fixpoint escape (s : string) : string :=
  match s with
  | EmptyString => EmptyString
  | String a rest =>
      if Ascii.eqb a dquote || Ascii.eqb a "\"
      then String "\" (String a (escape rest))
      else String a (escape rest)
  end.

Definition quote (s : string) : string :=
  String dquote (escape s ++ String dquote EmptyString).

Definition nl : string := String newline EmptyString.

(** An array or an object: on one line without a gap, one part a line with. *)
Definition enclose (opening closing gap ind : string) (parts : list string) : string :=
  match parts with
  | [] => opening ++ closing
  | _ =>
      if nonempty gap
      then opening ++ nl ++ ind ++ gap
           ++ String.concat ("," ++ nl ++ ind ++ gap) parts
           ++ nl ++ ind ++ closing
      else opening ++ String.concat "," parts ++ closing
  end.

Fixpoint write (gap ind : string) (v : JValue) {struct v} : string :=
  match v with
  | JUndefined | JNull => "null"
  | JBool b => if b then "true" else "false"
  | JNumber n => pretty n
  | JString s => quote s
  | JArray items => enclose "[" "]" gap ind (map (write gap (ind ++ gap)) items)
  | JObject fields =>
      enclose "{" "}" gap ind
        ((fix members (fs : list (string * JValue)) : list string :=
            match fs with
            | [] => []
            | (k, x) :: rest =>
                match x with
                | JUndefined => members rest
                | _ =>
                    (quote k ++ (if nonempty gap then ": " else ":")
                       ++ write gap (ind ++ gap) x) :: members rest
                end
            end) fields)
  end.

(** The gap is at most the first ten characters of [space]. *)
Definition write_json (v : JValue) (space : string) : string :=
  write (String.substring 0 10 space) EmptyString v.

(** ** Detecting the indentation *)

Definition is_indent (a : ascii) : bool := Ascii.eqb a " " || Ascii.eqb a "009".

Fixpoint leading (s : string) : string * string :=
  match s with
  | String a rest =>
      if is_indent a then let '(run, r) := leading rest in (String a run, r)
      else (EmptyString, s)
  | EmptyString => (EmptyString, s)
  end.

Fixpoint after_line (s : string) : string :=
  match s with
  | String a rest => if Ascii.eqb a newline then rest else after_line rest
  | EmptyString => s
  end.

(** The blanks before the first line that is indented and not blank. *)
Fixpoint first_indent (fuel : nat) (s : string) : string :=
  match fuel with
  | O => EmptyString
  | S fuel =>
      match s with
      | EmptyString => EmptyString
      | _ =>
          match leading s with
          | (String a run, String b rest) =>
              if Ascii.eqb b newline then first_indent fuel rest else String a run
          | (_, rest) => first_indent fuel (after_line rest)
          end
      end
  end.

Definition detect (s : string) : string := first_indent (String.length s) s.

(** ** Cells, language, tokens *)

Record Cell : Type := mkCell { language : string; stored : JValue }.

Definition to_cell (preferred : string) (cell : JValue) : Cell :=
  mkCell preferred cell.

Definition preferred_language (notebook_metadata : JValue) : string :=
  match opt_get (opt_get notebook_metadata "language_info") "name" with
  | JString name => name
  | _ => "python"
  end.

Definition token (n : nat) : string := "id-" ++ pretty n.

Definition to_NotebookData (without_cells stored_cells : JValue) (preferred : string)
    (original : JValue) : NotebookData Cell :=
  mkNotebookData
    (match stored_cells with
     | JArray items => map (to_cell preferred) items
     | _ => []
     end)
    {[ "custom" := without_cells ]}.

(** The collaborators, with the behaviour of telemetry left open. *)
Definition collaborators (telemetry : JValue -> option string) : Collaborators := {|
  VSCCell := Cell;
  JSON_parse := read_json;
  JSON_stringify := write_json;
  detectIndent := detect;
  uuid := token;
  sendLanguageTelemetry := telemetry;
  getPreferredLanguage := preferred_language;
  notebookModelToVSCNotebookData := to_NotebookData;
  createJupyterCellFromVSCNotebookCell := stored;
  pruneCell := fun cell => cell;
  new_NotebookDocumentMetadata := ∅
|}.

(** Telemetry that always returns, and telemetry that always throws. *)
Definition quiet : Collaborators := collaborators (fun _ => None).
Definition failing : Collaborators :=
  collaborators (fun _ => Some "telemetry is down").

(** A world in which nothing happened yet. *)
Definition start : World := mkWorld 0 [].

(** ** Files and models of the examples *)

(** A notebook with one markdown cell, on one line. *)
Definition one_cell : list Byte.byte :=
  bytes "{'cells': [{'cell_type':'markdown','metadata':{},'source':'# Hi'}], 'nbformat':4, 'nbformat_minor':2}".

Definition one_cell_json : JValue :=
  JObject [("cells", JArray [JObject [("cell_type", JString "markdown");
                                      ("metadata", JObject []);
                                      ("source", JString "# Hi")]]);
           ("nbformat", JNumber 4);
           ("nbformat_minor", JNumber 2)].

(** A notebook with no cell. *)
Definition no_cell : list Byte.byte := bytes "{'cells': []}".

Definition no_cell_json : JValue := JObject [("cells", JArray [])].

(** A notebook indented by four spaces. *)
Definition four_spaces : list Byte.byte :=
  bytes "{
    'cells': [
        {
            'cell_type': 'code'
        }
    ],
    'nbformat': 4
}".

Definition four_spaces_json : JValue :=
  JObject [("cells", JArray [JObject [("cell_type", JString "code")]]);
           ("nbformat", JNumber 4)].

(** A document indented by four spaces that has no [cells]. *)
Definition four_spaces_no_cells : list Byte.byte :=
  bytes "{
    'metadata': {}
}".

Definition four_spaces_no_cells_json : JValue := JObject [("metadata", JObject [])].

(** A notebook whose [nbformat] is 0. *)
Definition zero_nbformat : list Byte.byte :=
  bytes "{'cells': [{'cell_type':'code'}], 'nbformat': 0}".

Definition zero_nbformat_json : JValue :=
  JObject [("cells", JArray [JObject [("cell_type", JString "code")]]);
           ("nbformat", JNumber 0)].

(** Documents that are not notebooks. *)
Definition only_null : list Byte.byte := bytes "null".
Definition an_array : list Byte.byte := bytes "[1, 2]".
Definition cells_with_length : list Byte.byte := bytes "{'cells': {'length': 0}}".

Definition cells_with_length_json : JValue :=
  JObject [("cells", JObject [("length", JNumber 0)])].
Definition no_cells_field : list Byte.byte := bytes "{}".

(** Models handed to [serialize]. *)
Definition minor_five : NotebookData Cell :=
  mkNotebookData [] {[ "nbformat_minor" := JNumber 5 ]}.

Definition bare : NotebookData Cell := mkNotebookData [] ∅.

(** A model with two cells. *)
Definition two_cells : NotebookData Cell :=
  mkNotebookData
    [mkCell "python" (JObject [("cell_type", JString "code"); ("source", JString "1+1")]);
     mkCell "markdown" (JObject [("cell_type", JString "markdown"); ("source", JString "# Hi")])]
    {[ "indentAmount" := JString "  " ]}.

Definition with_kernelspec : NotebookData Cell :=
  mkNotebookData [] {[ "kernelspec" := JString "python3" ]}.

End Reference.

(** * Properties *)

(** ** Object literals *)

Lemma lookup_set_field_eq k v fields :
  lookup_field k (set_field k v fields) = Some v.
Proof.
  induction fields as [|[k' v'] rest IH]; simpl.
  - by rewrite String.eqb_refl.
  - destruct (String.eqb k k') eqn:E; simpl; rewrite E; [done | exact IH].
Qed.

Lemma lookup_set_field_ne k k' v fields :
  k ≠ k' → lookup_field k' (set_field k v fields) = lookup_field k' fields.
Proof.
  intros Hne. induction fields as [|[k0 v0] rest IH]; simpl.
  - destruct (String.eqb k' k) eqn:E; [|done].
    apply String.eqb_eq in E. congruence.
  - destruct (String.eqb k k0) eqn:E; simpl.
    + apply String.eqb_eq in E. subst k0.
      destruct (String.eqb k' k) eqn:E'; [|done].
      apply String.eqb_eq in E'. congruence.
    + by rewrite IH.
Qed.

(** Only an object has a truthy [cells]. *)
Lemma truthy_cells_object json :
  truthy (get json "cells") = true → ∃ fields, json = JObject fields.
Proof. destruct json; simpl; try discriminate. eauto. Qed.

(** Arrays, numbers, booleans and strings have no [cells]. *)
Lemma non_object_has_no_cells json :
  (∀ fields, json ≠ JObject fields) → get json "cells" = JUndefined.
Proof. destruct json; simpl; try done. intros Hno. by destruct (Hno fields). Qed.

(** ** Metadata *)

Lemma with_nil (m : Metadata) : with_ m [] = m.
Proof. done. Qed.

Lemma with_cons (m : Metadata) k v change :
  with_ m ((k, v) :: change) = with_ (<[k := v]> m) change.
Proof. done. Qed.

Lemma has_true (m : Metadata) k : has m k = true ↔ is_Some (m !! k).
Proof. unfold has. apply bool_decide_eq_true. Qed.

Lemma has_false (m : Metadata) k : has m k = false ↔ m !! k = None.
Proof.
  unfold has. rewrite bool_decide_eq_false.
  split; [apply eq_None_not_Some | intros ->; by apply is_Some_None].
Qed.

Lemma prop_Some (m : Metadata) k v : m !! k = Some v → prop m k = v.
Proof. unfold prop. by intros ->. Qed.

Section Decode.
Context {host : Collaborators}.

(** ** The paths of [deserializeNotebook] *)

Lemma deserializeNotebook_paths content w :
  deserializeNotebook content w =
    match parsed content with
    | None => (inl MalformedInputError, w)
    | Some json =>
        if short_circuits json then (inr empty_NotebookData, w)
        else if truthy json then
          match sendLanguageTelemetry json with
          | Some message => (inl (CollaboratorFailure message), told json w)
          | None => (inr (assembled content json (uuid (uuid_drawn w))), drawn (told json w))
          end
        else (inr (assembled content json (uuid (uuid_drawn w))), drawn w)
    end.
Proof.
  unfold deserializeNotebook, parsed, short_circuits, mbind, M_bind, parse.
  destruct (nonempty (Buffer_toString content)) eqn:Hne.
  - destruct (JSON_parse (Buffer_toString content)) as [json|]; [|done].
    unfold mret, M_ret. simpl.
    destruct (truthy json && negb (truthy (get json "cells"))); [done|].
    destruct (truthy json); unfold telemetry.
    + destruct (sendLanguageTelemetry json); [done|].
      unfold assembled, indent_read. by rewrite Hne.
    + unfold assembled, indent_read. by rewrite Hne.
  - unfold mret, M_ret. simpl.
    unfold assembled, indent_read. by rewrite Hne.
Qed.

End Decode.

(** ** Writing: [serialize] *)

Section Encode.
Context {host : Collaborators}.
Implicit Types data : Serializable VSCCell.

Lemma metadata_of_set_metadata m data : metadata_of (set_metadata m data) = m.
Proof. by destruct data. Qed.

Lemma serialized_cells_set_metadata m data :
  serialized_cells (set_metadata m data) = serialized_cells data.
Proof. by destruct data. Qed.

(** The four properties of the object handed to [JSON.stringify]. *)
Lemma serialize_json_fields data :
  ∃ version,
    serialize_json data =
      JObject [("cells", JArray (serialized_cells data));
               ("metadata", JObject [("orig_nbformat", JNumber 4)]);
               ("nbformat", version);
               ("nbformat_minor", JNumber 2)]
    ∧ version =
        if has (metadata_of data) "nbformat_minor"
        then prop (metadata_of data) "nbformat_minor"
        else if has (metadata_of data) "nbformat"
             then prop (metadata_of data) "nbformat"
             else JNumber 4.
Proof.
  unfold serialize_json.
  generalize (prop (metadata_of data) "nbformat_minor") as minor.
  generalize (prop (metadata_of data) "nbformat") as major.
  intros major minor.
  destruct (has (metadata_of data) "nbformat_minor"),
           (has (metadata_of data) "nbformat"); eexists; split; reflexivity.
Qed.

Lemma serialize_json_nbformat data :
  get (serialize_json data) "nbformat" =
    if has (metadata_of data) "nbformat_minor"
    then prop (metadata_of data) "nbformat_minor"
    else if has (metadata_of data) "nbformat"
         then prop (metadata_of data) "nbformat"
         else JNumber 4.
Proof. destruct (serialize_json_fields data) as (version & -> & ->). done. Qed.

Lemma serialize_json_nbformat_minor data :
  get (serialize_json data) "nbformat_minor" = JNumber 2.
Proof. destruct (serialize_json_fields data) as (version & -> & _). done. Qed.

Lemma serialize_json_metadata data :
  get (serialize_json data) "metadata" = JObject [("orig_nbformat", JNumber 4)].
Proof. destruct (serialize_json_fields data) as (version & -> & _). done. Qed.

Lemma serialize_json_cells data :
  get (serialize_json data) "cells" = JArray (serialized_cells data).
Proof. destruct (serialize_json_fields data) as (version & -> & _). done. Qed.

(** [serialize] reads the metadata at three names only. *)
Lemma serialize_json_frame data (m : Metadata) :
  m !! "nbformat" = metadata_of data !! "nbformat" →
  m !! "nbformat_minor" = metadata_of data !! "nbformat_minor" →
  serialize_json (set_metadata m data) = serialize_json data.
Proof.
  intros Hmajor Hminor.
  unfold serialize_json, has, prop.
  rewrite metadata_of_set_metadata, serialized_cells_set_metadata.
  by rewrite Hmajor, Hminor.
Qed.

Lemma indentAmount_of_frame data (m : Metadata) :
  m !! "indentAmount" = metadata_of data !! "indentAmount" →
  indentAmount_of (set_metadata m data) = indentAmount_of data.
Proof.
  intros Hindent. unfold indentAmount_of, has, prop.
  by rewrite metadata_of_set_metadata, Hindent.
Qed.

Lemma indentAmount_of_string data s :
  metadata_of data !! "indentAmount" = Some (JString s) → indentAmount_of data = s.
Proof.
  intros Hs. unfold indentAmount_of.
  rewrite (prop_Some _ _ _ Hs).
  by rewrite (proj2 (has_true _ _) (mk_is_Some _ _ Hs)).
Qed.

Lemma indentAmount_of_default data :
  (∀ s, metadata_of data !! "indentAmount" ≠ Some (JString s)) →
  indentAmount_of data = " ".
Proof.
  intros Hno. unfold indentAmount_of, has, prop.
  destruct (metadata_of data !! "indentAmount") as [[| |b|n|s|items|fields]|] eqn:E;
    simpl; try done.
  by destruct (Hno s).
Qed.

(** C2: when the metadata has an [nbformat_minor], [serialize] writes its value
    into the [nbformat] property of the output, and the [nbformat_minor] property
    of the output stays 2. With [nbformat_minor] 5 the output has [nbformat] 5,
    whether or not the metadata has an [nbformat]. *)
Theorem C2_nbformat_minor_lands_in_nbformat data v :
  metadata_of data !! "nbformat_minor" = Some v →
  get (serialize_json data) "nbformat" = v
  ∧ get (serialize_json data) "nbformat_minor" = JNumber 2
  ∧ serialize data = JSON_stringify (serialize_json data) (indentAmount_of data).
Proof.
  intros Hminor. split; [|split; [apply serialize_json_nbformat_minor | done]].
  rewrite serialize_json_nbformat.
  rewrite (proj2 (has_true _ _) (mk_is_Some _ _ Hminor)).
  by apply prop_Some.
Qed.

(** C10: whatever the metadata, the [nbformat_minor] property of the output is
    2; the value of an [nbformat_minor] of the metadata goes to the [nbformat]
    property instead. *)
Theorem C10_nbformat_minor_is_always_2 data :
  get (serialize_json data) "nbformat_minor" = JNumber 2
  ∧ get (serialize_json data) "nbformat" =
      (if has (metadata_of data) "nbformat_minor"
       then prop (metadata_of data) "nbformat_minor"
       else if has (metadata_of data) "nbformat"
            then prop (metadata_of data) "nbformat"
            else JNumber 4)
  ∧ serialize data = JSON_stringify (serialize_json data) (indentAmount_of data).
Proof.
  split; [apply serialize_json_nbformat_minor|].
  split; [apply serialize_json_nbformat | done].
Qed.

(** C4, as the code has it: the metadata of the output is exactly
    [orig_nbformat = 4], and a metadata name other than [nbformat],
    [nbformat_minor] and [indentAmount] does not reach the output at all:
    setting it changes neither the object written nor the text. *)
Theorem C4_other_metadata_is_dropped data k v :
  k ≠ "nbformat" → k ≠ "nbformat_minor" → k ≠ "indentAmount" →
  get (serialize_json data) "metadata" = JObject [("orig_nbformat", JNumber 4)]
  ∧ serialize_json (set_metadata (<[k := v]> (metadata_of data)) data) = serialize_json data
  ∧ serialize (set_metadata (<[k := v]> (metadata_of data)) data) = serialize data.
Proof.
  intros Hmajor Hminor Hindent.
  assert (serialize_json (set_metadata (<[k := v]> (metadata_of data)) data)
          = serialize_json data) as Hjson.
  { apply serialize_json_frame; by rewrite lookup_insert_ne. }
  split; [apply serialize_json_metadata|]. split; [done|].
  unfold serialize. rewrite Hjson. f_equal.
  apply indentAmount_of_frame. by rewrite lookup_insert_ne.
Qed.

End Encode.

(** ** Reading: [deserializeNotebook] *)

Section DecodeProperties.
Context {host : Collaborators}.

Lemma nonempty_toString content :
  nonempty (Buffer_toString content) = true ↔ content ≠ [].
Proof.
  unfold nonempty, Buffer_toString, string_of_list_byte.
  destruct content; simpl; split; congruence.
Qed.

Lemma parsed_None content :
  parsed content = None ↔ content ≠ [] ∧ JSON_parse (Buffer_toString content) = None.
Proof.
  unfold parsed. rewrite <- nonempty_toString.
  destruct (nonempty (Buffer_toString content)); split.
  - by intros ?; split.
  - by intros [_ ?].
  - done.
  - by intros [? _].
Qed.

Lemma parsed_empty : parsed [] = Some JUndefined.
Proof. done. Qed.

(** [ensure_blank_cell] touches [cells] only. *)
Lemma opt_get_ensure_blank_cell json k :
  k ≠ "cells" → opt_get (ensure_blank_cell json) k = opt_get json k.
Proof.
  intros Hk. unfold ensure_blank_cell.
  destruct (is_zero _); [|done].
  destruct json; try done. simpl.
  by rewrite lookup_set_field_ne.
Qed.

Lemma cells_after_ensure json items :
  get json "cells" = JArray items →
  opt_get (ensure_blank_cell json) "cells" =
    JArray (match items with [] => [blank_code_cell] | _ => items end).
Proof.
  intros Hcells.
  destruct (truthy_cells_object json) as [fields ->]; [by rewrite Hcells|].
  unfold ensure_blank_cell.
  replace (opt_get (JObject fields) "cells") with (JArray items) by done.
  destruct items as [|item items]; simpl.
  - by rewrite lookup_set_field_eq.
  - exact Hcells.
Qed.

Lemma cells_update_metadata (data : NotebookData VSCCell) change :
  cells (update_metadata data change) = cells data.
Proof. done. Qed.

Lemma metadata_update_metadata (data : NotebookData VSCCell) change :
  metadata (update_metadata data change) = with_ (metadata data) change.
Proof. done. Qed.

Lemma cells_with_nbformat json (data : NotebookData VSCCell) :
  cells (with_nbformat json data) = cells data.
Proof. unfold with_nbformat. by destruct (truthy _), (truthy _). Qed.

Lemma cells_assembled content json id :
  cells (assembled content json id) = cells (converted json).
Proof. unfold assembled. by rewrite cells_with_nbformat. Qed.

(** The schema version is laid over two names only. *)
Lemma metadata_with_nbformat_other json (data : NotebookData VSCCell) k :
  k ≠ "nbformat" → k ≠ "nbformat_minor" →
  metadata (with_nbformat json data) !! k = metadata data !! k.
Proof.
  intros Hmajor Hminor. unfold with_nbformat.
  destruct (truthy (opt_get json "nbformat")), (truthy (opt_get json "nbformat_minor"));
    rewrite ?metadata_update_metadata, ?with_cons, ?with_nil, ?lookup_insert_ne; done.
Qed.

Lemma metadata_with_nbformat_minor json (data : NotebookData VSCCell) :
  truthy (opt_get json "nbformat_minor") = true →
  metadata (with_nbformat json data) !! "nbformat_minor"
    = Some (opt_get json "nbformat_minor").
Proof.
  intros Hminor. unfold with_nbformat. rewrite Hminor.
  by rewrite metadata_update_metadata, with_cons, with_nil, lookup_insert_eq.
Qed.

Lemma metadata_assembled_id content json id :
  metadata (assembled content json id) !! "__vsc_id" = Some (JString id).
Proof.
  unfold assembled. rewrite metadata_with_nbformat_other by done.
  by rewrite metadata_update_metadata, !with_cons, with_nil, lookup_insert_eq.
Qed.

Lemma metadata_assembled_indent content json id :
  metadata (assembled content json id) !! "indentAmount"
    = Some (JString (indent_read content)).
Proof.
  unfold assembled. rewrite metadata_with_nbformat_other by done.
  rewrite metadata_update_metadata, !with_cons, with_nil, lookup_insert_ne by done.
  by rewrite lookup_insert_eq.
Qed.

Lemma metadata_assembled_minor content json id :
  truthy (opt_get json "nbformat_minor") = true →
  metadata (assembled content json id) !! "nbformat_minor"
    = Some (opt_get json "nbformat_minor").
Proof.
  intros Hminor. unfold assembled.
  rewrite <- (opt_get_ensure_blank_cell json "nbformat_minor") in * by done.
  by apply metadata_with_nbformat_minor.
Qed.

(** A document with truthy [cells] is not short-circuited. *)
Lemma truthy_cells_goes_on json :
  truthy (get json "cells") = true → truthy json = true ∧ short_circuits json = false.
Proof.
  intros Hcells. destruct (truthy_cells_object json Hcells) as [fields ->].
  unfold short_circuits. by rewrite Hcells.
Qed.

(** What [deserializeNotebook] returns when it is not short-circuited and
    telemetry returns. *)
Lemma deserializeNotebook_returns content json w :
  parsed content = Some json →
  short_circuits json = false →
  (truthy json = true → sendLanguageTelemetry json = None) →
  ∃ w', deserializeNotebook content w
          = (inr (assembled content json (uuid (uuid_drawn w))), w')
        ∧ uuid_drawn w' = S (uuid_drawn w).
Proof.
  intros Hparsed Hgo Htele.
  rewrite deserializeNotebook_paths, Hparsed, Hgo.
  destruct (truthy json); [rewrite Htele by done|]; eauto.
Qed.

(** What a successful call that is not short-circuited has returned. *)
Lemma deserializeNotebook_returned content json w d w' :
  parsed content = Some json →
  short_circuits json = false →
  deserializeNotebook content w = (inr d, w') →
  d = assembled content json (uuid (uuid_drawn w)) ∧ uuid_drawn w' = S (uuid_drawn w).
Proof.
  intros Hparsed Hgo. rewrite deserializeNotebook_paths, Hparsed, Hgo.
  destruct (truthy json); [destruct (sendLanguageTelemetry json)|];
    intros [= <- <-]; done.
Qed.

End DecodeProperties.

(** ** The claims about reading *)

Section DecodeClaims.
Context {host : Collaborators}.

(** C8: [deserializeNotebook] throws the error of [JSON.parse] exactly when
    the content is not empty and [JSON.parse] rejects its text. On empty
    content nothing is parsed (the result is the same with any other
    [JSON.parse]) and the call returns the converter's model of an empty
    document, with the single-space indentation and a token. *)
Theorem C8_malformed_input_exactly content w other :
  ((deserializeNotebook content w).1 = inl MalformedInputError
     ↔ content ≠ [] ∧ JSON_parse (Buffer_toString content) = None)
  ∧ deserializeNotebook [] w =
      (inr (update_metadata
              (notebookModelToVSCNotebookData
                 (JObject [("cells", JArray [])]) (JArray [])
                 (getPreferredLanguage JUndefined) (JObject []))
              [("indentAmount", JString " ");
               ("__vsc_id", JString (uuid (uuid_drawn w)))]),
       drawn w)
  ∧ deserializeNotebook (host := with_JSON_parse other host) [] w
      = deserializeNotebook [] w.
Proof.
  split; [|split; reflexivity].
  rewrite <- parsed_None, deserializeNotebook_paths.
  destruct (parsed content) as [json|]; [|done].
  split; [|done].
  destruct (short_circuits json); [done|].
  destruct (truthy json); [destruct (sendLanguageTelemetry json)|]; done.
Qed.

(** C5, as the code has it: when the text parses to a truthy value whose
    [cells] is missing or falsy, the call returns [new NotebookData([])], with no
    cell, throws nothing and leaves the world alone. *)
Theorem C5_falsy_cells_short_circuit content json w :
  parsed content = Some json →
  truthy json = true →
  truthy (get json "cells") = false →
  deserializeNotebook content w = (inr empty_NotebookData, w)
  ∧ cells empty_NotebookData = [].
Proof.
  intros Hparsed Hjson Hcells. split; [|done].
  rewrite deserializeNotebook_paths, Hparsed.
  unfold short_circuits. by rewrite Hjson, Hcells.
Qed.

(** C6, as the code has it: nothing stands between the telemetry call and the
    caller. On a document with truthy [cells] the call hands the document to
    telemetry; when telemetry throws, the call throws the same failure and
    returns no model, and when telemetry returns, the call goes on to its
    result. *)
Theorem C6_telemetry_failure_propagates content json w :
  parsed content = Some json →
  truthy (get json "cells") = true →
  deserializeNotebook content w =
    match sendLanguageTelemetry json with
    | Some message => (inl (CollaboratorFailure message), told json w)
    | None => (inr (assembled content json (uuid (uuid_drawn w))), drawn (told json w))
    end.
Proof.
  intros Hparsed Hcells.
  destruct (truthy_cells_goes_on json Hcells) as [Hjson Hgo].
  by rewrite deserializeNotebook_paths, Hparsed, Hgo, Hjson.
Qed.

(** C7: when [cells] is an empty array, the cells handed to the converter are
    one blank code cell (code, no execution count, empty metadata, outputs and
    source), and with a converter that maps cell by cell the model has exactly
    one cell. *)
Theorem C7_empty_cells_become_one_blank_cell
    (toModel : string → JValue → VSCCell) content json w :
  (∀ doc items language original,
     cells (notebookModelToVSCNotebookData doc (JArray items) language original)
       = map (toModel language) items) →
  parsed content = Some json →
  get json "cells" = JArray [] →
  sendLanguageTelemetry json = None →
  get (ensure_blank_cell json) "cells" =
    JArray [JObject [("cell_type", JString "code");
                     ("execution_count", JNull);
                     ("metadata", JObject []);
                     ("outputs", JArray []);
                     ("source", JString "")]]
  ∧ ∃ d w',
      deserializeNotebook content w = (inr d, w')
      ∧ cells d = [toModel (getPreferredLanguage (opt_get json "metadata")) blank_code_cell]
      ∧ length (cells d) = 1%nat.
Proof.
  intros Hcellwise Hparsed Hcells Htele.
  destruct (truthy_cells_goes_on json) as [Hjson Hgo]; [by rewrite Hcells|].
  pose proof (cells_after_ensure json [] Hcells) as Hblank.
  assert (get (ensure_blank_cell json) "cells" = JArray [blank_code_cell]) as Hget.
  { destruct (truthy_cells_object json) as [fields ->]; [by rewrite Hcells|].
    revert Hblank. unfold ensure_blank_cell.
    by destruct (is_zero _). }
  split; [exact Hget|].
  destruct (deserializeNotebook_returns content json w Hparsed Hgo) as (w' & Hrun & _);
    [done|].
  exists (assembled content json (uuid (uuid_drawn w))), w'.
  split; [exact Hrun|].
  assert (cells (assembled content json (uuid (uuid_drawn w)))
          = [toModel (getPreferredLanguage (opt_get json "metadata")) blank_code_cell])
    as Hone.
  { rewrite cells_assembled. unfold converted.
    rewrite Hblank. unfold or_else. simpl truthy. cbv iota.
    by rewrite Hcellwise. }
  by rewrite Hone.
Qed.

(** C3, as the code has it: a model returned by a call that is not
    short-circuited carries the token drawn by that call, and the tokens of two
    such calls, the second made after the first, differ, also on the same
    content, as long as the generator never repeats itself. *)
Theorem C3_identifier_is_fresh content1 content2 json1 json2 w1 w2 d1 d2 w1' w2' :
  Inj (=) (=) uuid →
  parsed content1 = Some json1 → short_circuits json1 = false →
  parsed content2 = Some json2 → short_circuits json2 = false →
  deserializeNotebook content1 w1 = (inr d1, w1') →
  (uuid_drawn w1' ≤ uuid_drawn w2)%nat →
  deserializeNotebook content2 w2 = (inr d2, w2') →
  ∃ id1 id2,
    metadata d1 !! "__vsc_id" = Some (JString id1)
    ∧ metadata d2 !! "__vsc_id" = Some (JString id2)
    ∧ id1 ≠ id2.
Proof.
  intros Hinj Hp1 Hgo1 Hp2 Hgo2 Hrun1 Hlater Hrun2.
  destruct (deserializeNotebook_returned _ _ _ _ _ Hp1 Hgo1 Hrun1) as [-> Hdrawn].
  destruct (deserializeNotebook_returned _ _ _ _ _ Hp2 Hgo2 Hrun2) as [-> _].
  exists (uuid (uuid_drawn w1)), (uuid (uuid_drawn w2)).
  rewrite !metadata_assembled_id. split; [done|]. split; [done|].
  intros Heq. apply Hinj in Heq. lia.
Qed.

(** C9, as the code has it: when the call is not short-circuited, the
    indentation read from the text (the unit found by [detectIndent], a single
    space for empty content) is recorded in the metadata, and writing the
    model back hands exactly that unit to [JSON.stringify], whose text makes
    the bytes. Whenever the metadata has no string under [indentAmount], the
    unit is a single space. A file that parses to a truthy value whose [cells]
    is missing or falsy is returned before the indentation is read: the model
    is [new NotebookData([])], its metadata the editor's own with nothing
    recorded, and unless that metadata holds a string under [indentAmount] the
    model is written back with a single space. *)
Theorem C9_indentation_round_trip content json w :
  parsed content = Some json →
  short_circuits json = false →
  (truthy json = true → sendLanguageTelemetry json = None) →
  (∃ d w',
     deserializeNotebook content w = (inr d, w')
     ∧ metadata d !! "indentAmount" = Some (JString (indent_read content))
     ∧ serializeNotebook d
       = Buffer_from (JSON_stringify (serialize_json (Data d)) (indent_read content)))
  ∧ (∀ data : Serializable VSCCell,
       (∀ s, metadata_of data !! "indentAmount" ≠ Some (JString s)) →
       serialize data = JSON_stringify (serialize_json data) " ")
  ∧ (∀ other other_json w0,
       parsed other = Some other_json →
       short_circuits other_json = true →
       deserializeNotebook other w0 = (inr empty_NotebookData, w0)
       ∧ metadata empty_NotebookData = new_NotebookDocumentMetadata
       ∧ ((∀ s, new_NotebookDocumentMetadata !! "indentAmount" ≠ Some (JString s)) →
          serializeNotebook empty_NotebookData
            = Buffer_from (JSON_stringify (serialize_json (Data empty_NotebookData)) " "))).
Proof.
  intros Hparsed Hgo Htele. split; [|split].
  - destruct (deserializeNotebook_returns content json w Hparsed Hgo Htele)
      as (w' & Hrun & _).
    eexists _, w'. split; [exact Hrun|].
    split; [apply metadata_assembled_indent|].
    unfold serializeNotebook, serialize. do 2 f_equal.
    apply indentAmount_of_string. simpl. apply metadata_assembled_indent.
  - intros data Hno. unfold serialize. by rewrite indentAmount_of_default.
  - intros other other_json w0 Hother Hshort.
    split; [by rewrite deserializeNotebook_paths, Hother, Hshort|].
    split; [done|].
    intros Hno. unfold serializeNotebook, serialize.
    by rewrite indentAmount_of_default.
Qed.

(** C1, where the code departs from the claim: after reading a notebook whose
    [nbformat_minor] is truthy and writing the model back, the [nbformat]
    property of the output is the [nbformat_minor] of the input. *)
Theorem C1_round_trip_overwrites_nbformat content json w :
  parsed content = Some json →
  truthy (get json "cells") = true →
  sendLanguageTelemetry json = None →
  truthy (get json "nbformat_minor") = true →
  ∃ d w',
    deserializeNotebook content w = (inr d, w')
    ∧ get (serialize_json (Data d)) "nbformat" = get json "nbformat_minor".
Proof.
  intros Hparsed Hcells Htele Hminor.
  destruct (truthy_cells_goes_on json Hcells) as [Hjson Hgo].
  destruct (truthy_cells_object json Hcells) as [fields ->].
  destruct (deserializeNotebook_returns content _ w Hparsed Hgo) as (w' & Hrun & _);
    [done|].
  eexists _, w'. split; [exact Hrun|].
  rewrite serialize_json_nbformat. simpl metadata_of.
  pose proof (metadata_assembled_minor content (JObject fields)
                (uuid (uuid_drawn w)) Hminor) as Hm.
  rewrite (proj2 (has_true _ _) (mk_is_Some _ _ Hm)).
  by rewrite (prop_Some _ _ _ Hm).
Qed.

(** The part of the round trip that holds: with a converter that maps cell
    by cell, and cell converters that undo each other, the cells written back
    are the cells read. *)
Lemma round_trip_cells (toModel : string → JValue → VSCCell) content json item items w :
  (∀ doc stored language original,
     cells (notebookModelToVSCNotebookData doc (JArray stored) language original)
       = map (toModel language) stored) →
  (∀ language cell,
     pruneCell (createJupyterCellFromVSCNotebookCell (toModel language cell)) = cell) →
  parsed content = Some json →
  get json "cells" = JArray (item :: items) →
  sendLanguageTelemetry json = None →
  ∃ d w',
    deserializeNotebook content w = (inr d, w')
    ∧ length (cells d) = length (item :: items)
    ∧ get (serialize_json (Data d)) "cells" = JArray (item :: items).
Proof.
  intros Hcellwise Hinverse Hparsed Hcells Htele.
  destruct (truthy_cells_goes_on json) as [Hjson Hgo]; [by rewrite Hcells|].
  destruct (deserializeNotebook_returns content json w Hparsed Hgo) as (w' & Hrun & _);
    [done|].
  eexists _, w'. split; [exact Hrun|].
  assert (cells (assembled content json (uuid (uuid_drawn w)))
          = map (toModel (getPreferredLanguage (opt_get json "metadata"))) (item :: items))
    as Hmodel.
  { rewrite cells_assembled. unfold converted.
    rewrite (cells_after_ensure json (item :: items) Hcells).
    unfold or_else. simpl truthy. cbv iota. by rewrite Hcellwise. }
  split; [by rewrite Hmodel, length_map|].
  rewrite serialize_json_cells. unfold serialized_cells. cbn [cells].
  rewrite Hmodel, !map_map. f_equal.
  rewrite <- (map_id (item :: items)) at 2.
  apply map_ext. intros cell. apply Hinverse.
Qed.

End DecodeClaims.

(** * The serializer at work on concrete files *)

Section Examples.
Import Reference.

Lemma token_inj : Inj (=) (=) token.
Proof.
  intros m n Heq. unfold token in Heq.
  apply (inj (String.append "id-")) in Heq.
  by apply (inj pretty) in Heq.
Qed.

(** The notebook with one markdown cell, read and written back: the cell is
    kept, [nbformat] comes out as 2. *)
Example one_cell_round_trip :
  ∃ d w,
    deserializeNotebook (host := quiet) one_cell start = (inr d, w)
    ∧ serialize (host := quiet) (Data d)
      = q "{'cells':[{'cell_type':'markdown','metadata':{},'source':'# Hi'}],'metadata':{'orig_nbformat':4},'nbformat':2,'nbformat_minor':2}".
Proof. eexists _, _. split; vm_compute; reflexivity. Qed.

(** The notebook indented by four spaces comes back indented by four spaces. *)
Example four_spaces_round_trip :
  ∃ d w,
    deserializeNotebook (host := quiet) four_spaces start = (inr d, w)
    ∧ serializeNotebook (host := quiet) d
      = bytes "{
    'cells': [
        {
            'cell_type': 'code'
        }
    ],
    'metadata': {
        'orig_nbformat': 4
    },
    'nbformat': 4,
    'nbformat_minor': 2
}".
Proof. eexists _, _. split; vm_compute; reflexivity. Qed.

(** C1: the input has [nbformat] 4 and [nbformat_minor] 2, the output has
    [nbformat] 2. *)
Lemma C1_witness :
  get one_cell_json "nbformat" = JNumber 4
  ∧ ∃ d w,
      deserializeNotebook (host := quiet) one_cell start = (inr d, w)
      ∧ get (serialize_json (host := quiet) (Data d)) "nbformat" = JNumber 2.
Proof.
  split; [reflexivity|].
  apply (C1_round_trip_overwrites_nbformat (host := quiet) one_cell one_cell_json start);
    vm_compute; reflexivity.
Defined.

(** C2: metadata with [nbformat_minor] 5 and no [nbformat]. *)
Lemma C2_witness :
  metadata minor_five !! "nbformat" = None
  ∧ get (serialize_json (host := quiet) (Data minor_five)) "nbformat" = JNumber 5
  ∧ get (serialize_json (host := quiet) (Data minor_five)) "nbformat_minor" = JNumber 2
  ∧ serialize (host := quiet) (Data minor_five)
    = write_json (serialize_json (host := quiet) (Data minor_five)) " ".
Proof.
  split; [vm_compute; reflexivity|].
  apply (C2_nbformat_minor_lands_in_nbformat (host := quiet) (Data minor_five) (JNumber 5)).
  vm_compute; reflexivity.
Defined.

(** C3, the claim as stated fails: a document without [cells] is read with
    success, twice, and neither model carries an identifier. *)
Lemma C3_counterexample :
  ∃ d1 w1 d2 w2,
    deserializeNotebook (host := quiet) no_cells_field start = (inr d1, w1)
    ∧ deserializeNotebook (host := quiet) no_cells_field w1 = (inr d2, w2)
    ∧ metadata d1 !! "__vsc_id" = None
    ∧ metadata d2 !! "__vsc_id" = None.
Proof. eexists _, _, _, _. repeat split; vm_compute; reflexivity. Qed.

(** C3: the same notebook read twice in a row. *)
Lemma C3_witness :
  ∃ d1 w1 d2 w2,
    deserializeNotebook (host := quiet) one_cell start = (inr d1, w1)
    ∧ deserializeNotebook (host := quiet) one_cell w1 = (inr d2, w2)
    ∧ ∃ id1 id2,
        metadata d1 !! "__vsc_id" = Some (JString id1)
        ∧ metadata d2 !! "__vsc_id" = Some (JString id2)
        ∧ id1 ≠ id2.
Proof.
  destruct (deserializeNotebook_returns (host := quiet) one_cell one_cell_json start)
    as (w1 & Hrun1 & Hdrawn1); [vm_compute; reflexivity..|].
  destruct (deserializeNotebook_returns (host := quiet) one_cell one_cell_json w1)
    as (w2 & Hrun2 & _); [vm_compute; reflexivity..|].
  eexists _, w1, _, w2. split; [exact Hrun1|]. split; [exact Hrun2|].
  apply (C3_identifier_is_fresh (host := quiet)
           one_cell one_cell one_cell_json one_cell_json start w1 _ _ w1 w2);
    [apply token_inj | vm_compute; reflexivity.. | exact Hrun1 | lia | exact Hrun2].
Defined.

(** C4, the claim as stated fails: the metadata has a [kernelspec], the
    metadata of the output has none, and the text shows [orig_nbformat] only. *)
Lemma C4_counterexample :
  metadata with_kernelspec !! "kernelspec" = Some (JString "python3")
  ∧ get (get (serialize_json (host := quiet) (Data with_kernelspec)) "metadata") "kernelspec"
    = JUndefined
  ∧ serialize (host := quiet) (Data with_kernelspec)
    = q "{
 'cells': [],
 'metadata': {
  'orig_nbformat': 4
 },
 'nbformat': 4,
 'nbformat_minor': 2
}".
Proof. repeat split; vm_compute; reflexivity. Qed.

(** C4: a [kernelspec] set on a model changes nothing in what is written. *)
Lemma C4_witness :
  get (serialize_json (host := quiet) (Data bare)) "metadata"
    = JObject [("orig_nbformat", JNumber 4)]
  ∧ serialize_json (host := quiet)
      (set_metadata (host := quiet)
         (<["kernelspec" := JString "python3"]> (metadata bare)) (Data bare))
    = serialize_json (host := quiet) (Data bare)
  ∧ serialize (host := quiet)
      (set_metadata (host := quiet)
         (<["kernelspec" := JString "python3"]> (metadata bare)) (Data bare))
    = serialize (host := quiet) (Data bare).
Proof.
  apply (C4_other_metadata_is_dropped (host := quiet) (Data bare)
           "kernelspec" (JString "python3")); discriminate.
Defined.

(** C5, the claim as stated fails: [cells] that is an object with a [length]
    of 0 is present and not a sequence, and the model has one cell, the blank
    one; [null] is not an object, and it is read like an empty file: a token is
    drawn and recorded, which the short-circuit never does. *)
Lemma C5_counterexample :
  (∃ d w,
     deserializeNotebook (host := quiet) cells_with_length start = (inr d, w)
     ∧ cells d = [to_cell "python" blank_code_cell]
     ∧ length (cells d) = 1%nat)
  ∧ (∃ d w,
       deserializeNotebook (host := quiet) only_null start = (inr d, w)
       ∧ metadata d !! "__vsc_id" = Some (JString "id-0")
       ∧ uuid_drawn w = 1%nat)
  ∧ metadata (empty_NotebookData (host := quiet)) !! "__vsc_id" = None.
Proof.
  split; [|split]; try (eexists _, _; repeat split); vm_compute; reflexivity.
Qed.

(** C5: an array has no [cells]. *)
Lemma C5_witness :
  deserializeNotebook (host := quiet) an_array start
    = (inr (empty_NotebookData (host := quiet)), start)
  ∧ cells (empty_NotebookData (host := quiet)) = [].
Proof.
  apply (C5_falsy_cells_short_circuit (host := quiet) an_array
           (JArray [JNumber 1; JNumber 2]) start);
    vm_compute; reflexivity.
Defined.

(** C6, the claim as stated fails: telemetry throws and so does the call. *)
Lemma C6_counterexample :
  sendLanguageTelemetry (Collaborators := failing) one_cell_json
    = Some "telemetry is down"
  ∧ (deserializeNotebook (host := failing) one_cell start).1
    = inl (CollaboratorFailure "telemetry is down").
Proof. split; vm_compute; reflexivity. Qed.

(** C6: the notebook with no cell, with telemetry that throws. *)
Lemma C6_witness :
  deserializeNotebook (host := failing) no_cell start
    = (inl (CollaboratorFailure "telemetry is down"), told no_cell_json start).
Proof.
  apply (C6_telemetry_failure_propagates (host := failing) no_cell no_cell_json start);
    vm_compute; reflexivity.
Defined.

(** C7: the notebook with no cell. *)
Lemma C7_witness :
  get (ensure_blank_cell no_cell_json) "cells" =
    JArray [JObject [("cell_type", JString "code");
                     ("execution_count", JNull);
                     ("metadata", JObject []);
                     ("outputs", JArray []);
                     ("source", JString "")]]
  ∧ ∃ d w,
      deserializeNotebook (host := quiet) no_cell start = (inr d, w)
      ∧ cells d = [to_cell "python" blank_code_cell]
      ∧ length (cells d) = 1%nat.
Proof.
  apply (C7_empty_cells_become_one_blank_cell (host := quiet) to_cell
           no_cell no_cell_json start);
    [intros; reflexivity | vm_compute; reflexivity..].
Defined.

(** C9, the claim as stated fails: a document indented by four spaces and
    without [cells] is read with success, no indentation is recorded, and the
    text written back is indented by one space. *)
Lemma C9_counterexample :
  detectIndent (Collaborators := quiet) (Buffer_toString four_spaces_no_cells) = "    "
  ∧ ∃ d w,
      deserializeNotebook (host := quiet) four_spaces_no_cells start = (inr d, w)
      ∧ metadata d !! "indentAmount" = None
      ∧ serializeNotebook (host := quiet) d
        = bytes "{
 'cells': [],
 'metadata': {
  'orig_nbformat': 4
 },
 'nbformat': 4,
 'nbformat_minor': 2
}".
Proof. split; [|eexists _, _; repeat split]; vm_compute; reflexivity. Qed.

(** C9: the notebook indented by four spaces, and the document indented by
    four spaces that has no [cells]. *)
Lemma C9_witness :
  (∃ d w,
     deserializeNotebook (host := quiet) four_spaces start = (inr d, w)
     ∧ metadata d !! "indentAmount" = Some (JString "    ")
     ∧ serializeNotebook (host := quiet) d
       = Buffer_from (write_json (serialize_json (host := quiet) (Data d)) "    "))
  ∧ (∀ data : Serializable Cell,
       (∀ s, metadata_of (host := quiet) data !! "indentAmount" ≠ Some (JString s)) →
       serialize (host := quiet) data
         = write_json (serialize_json (host := quiet) data) " ")
  ∧ deserializeNotebook (host := quiet) four_spaces_no_cells start
    = (inr (empty_NotebookData (host := quiet)), start)
  ∧ serializeNotebook (host := quiet) (empty_NotebookData (host := quiet))
    = Buffer_from
        (write_json (serialize_json (host := quiet) (Data (empty_NotebookData (host := quiet))))
           " ").
Proof.
  destruct (C9_indentation_round_trip (host := quiet) four_spaces four_spaces_json start)
    as (Hround & Hdefault & Hshort); [vm_compute; reflexivity..|].
  split; [exact Hround|]. split; [exact Hdefault|].
  destruct (Hshort four_spaces_no_cells four_spaces_no_cells_json start)
    as (Hrun & _ & Hwrite); [vm_compute; reflexivity..|].
  split; [exact Hrun|].
  apply Hwrite. intros s. discriminate.
Defined.

End Examples.

(** * Further properties of the serializer *)

Section Effects.
Context {host : Collaborators}.

(** Only an object has a [cells] whose [length] is 0. *)
Lemma zero_length_cells_object json :
  is_zero (opt_get (opt_get json "cells") "length") = true → ∃ fields, json = JObject fields.
Proof. destruct json; simpl; try discriminate. eauto. Qed.

(** After line 56 the [cells] of the document never have [length] 0. *)
Lemma ensure_blank_cell_not_empty json :
  is_zero (opt_get (opt_get (ensure_blank_cell json) "cells") "length") = false.
Proof.
  unfold ensure_blank_cell.
  destruct (is_zero (opt_get (opt_get json "cells") "length")) eqn:Hzero; [|done].
  destruct (zero_length_cells_object json Hzero) as [fields ->].
  simpl. by rewrite lookup_set_field_eq.
Qed.

Lemma falsy_has_no_cells json : truthy json = false → opt_get json "cells" = JUndefined.
Proof. by destruct json. Qed.

Lemma falsy_ensure_blank_cell json : truthy json = false → ensure_blank_cell json = json.
Proof.
  intros Hfalsy. unfold ensure_blank_cell.
  by rewrite (falsy_has_no_cells json Hfalsy).
Qed.

Lemma short_circuits_false json :
  short_circuits json = false →
  truthy json = false ∨ truthy (get json "cells") = true.
Proof.
  unfold short_circuits. destruct (truthy json), (truthy (get json "cells")); auto.
Qed.

(** X1: telemetry is told about a document exactly when the text parses to a
    document with truthy [cells], and then once, with the document as parsed;
    an empty file, a rejected text and a short-circuited document tell it
    nothing. *)
Theorem X1_telemetry_told_exactly content w :
  telemetry_sent (deserializeNotebook content w).2 =
    match parsed content with
    | Some json =>
        if truthy (get json "cells")
        then json :: telemetry_sent w
        else telemetry_sent w
    | None => telemetry_sent w
    end.
Proof.
  rewrite deserializeNotebook_paths.
  destruct (parsed content) as [json|]; [|done].
  destruct (truthy (get json "cells")) eqn:Hcells.
  - destruct (truthy_cells_goes_on json Hcells) as [-> ->].
    by destruct (sendLanguageTelemetry json).
  - unfold short_circuits. rewrite Hcells.
    by destruct (truthy json).
Qed.

(** X2: a call draws one token when it returns a model that was not
    short-circuited, and none when it throws or short-circuits. *)
Theorem X2_token_drawn_exactly content w :
  uuid_drawn (deserializeNotebook content w).2 =
    match (deserializeNotebook content w).1, parsed content with
    | inr _, Some json =>
        if short_circuits json then uuid_drawn w else S (uuid_drawn w)
    | _, _ => uuid_drawn w
    end.
Proof.
  rewrite deserializeNotebook_paths.
  destruct (parsed content) as [json|]; [|done].
  destruct (short_circuits json); [done|].
  destruct (truthy json); [destruct (sendLanguageTelemetry json)|]; done.
Qed.

Lemma opt_get_truthy v k : truthy v = true → opt_get v k = get v k.
Proof. by destruct v. Qed.

(** Among the documents that are not short-circuited, the converter gets an
    empty list of cells exactly for the falsy ones. *)
Lemma cells_argument_empty json :
  short_circuits json = false →
  cells_argument json = JArray [] ↔ truthy json = false.
Proof.
  intros Hgo. unfold cells_argument. split.
  - intros Hempty.
    destruct (short_circuits_false json Hgo) as [|Hcells]; [done|].
    destruct (truthy_cells_object json Hcells) as [fields ->].
    pose proof (ensure_blank_cell_not_empty (JObject fields)) as Hnot.
    revert Hempty Hnot. unfold or_else.
    destruct (truthy (opt_get (ensure_blank_cell (JObject fields)) "cells")) eqn:Htruthy.
    + by intros ->.
    + revert Htruthy. unfold ensure_blank_cell.
      destruct (is_zero _).
      * simpl. by rewrite lookup_set_field_eq.
      * change (opt_get (JObject fields) "cells") with (get (JObject fields) "cells").
        by rewrite Hcells.
  - intros Hfalsy.
    by rewrite (falsy_ensure_blank_cell json Hfalsy), (falsy_has_no_cells json Hfalsy).
Qed.

(** The cells handed to the converter, case by case. *)
Lemma cells_argument_cases json :
  short_circuits json = false →
  cells_argument json =
    if truthy json
    then if is_zero (get (get json "cells") "length")
         then JArray [blank_code_cell]
         else get json "cells"
    else JArray [].
Proof.
  intros Hgo. destruct (truthy json) eqn:Hjson.
  - destruct (short_circuits_false json Hgo) as [|Hcells]; [congruence|].
    destruct (truthy_cells_object json Hcells) as [fields ->].
    unfold cells_argument, ensure_blank_cell.
    change (opt_get (JObject fields) "cells") with (get (JObject fields) "cells").
    rewrite (opt_get_truthy _ "length" Hcells).
    destruct (is_zero _).
    + simpl. by rewrite lookup_set_field_eq.
    + change (opt_get (JObject fields) "cells") with (get (JObject fields) "cells").
      unfold or_else. by rewrite Hcells.
  - unfold cells_argument.
    by rewrite (falsy_ensure_blank_cell json Hjson), (falsy_has_no_cells json Hjson).
Qed.

(** X4: in a call that is not short-circuited, the cells of the model are
    the converter's cells for this argument: no cell when the parsed value is
    falsy (an empty file, [null], 0, [false], an empty string), one blank code
    cell when the [length] of the document's [cells] is 0 (an empty array, or
    an object with a [length] of 0), and the document's [cells] as they are
    otherwise. So the converter gets an empty list exactly for the falsy
    values: an empty file gets no blank cell. *)
Theorem X4_cells_handed_to_the_converter content json w :
  parsed content = Some json →
  short_circuits json = false →
  (truthy json = true → sendLanguageTelemetry json = None) →
  ∃ d w',
    deserializeNotebook content w = (inr d, w')
    ∧ cells d =
        cells (notebookModelToVSCNotebookData
                 (JObject (set_field "cells" (JArray []) (spread (ensure_blank_cell json))))
                 (cells_argument json)
                 (getPreferredLanguage (opt_get json "metadata"))
                 (or_else (ensure_blank_cell json) (JObject [])))
    ∧ cells_argument json =
        (if truthy json
         then if is_zero (get (get json "cells") "length")
              then JArray [blank_code_cell]
              else get json "cells"
         else JArray [])
    ∧ (cells_argument json = JArray [] ↔ truthy json = false).
Proof.
  intros Hparsed Hgo Htele.
  destruct (deserializeNotebook_returns content json w Hparsed Hgo Htele) as (w' & Hrun & _).
  eexists _, w'. split; [exact Hrun|].
  split; [by rewrite cells_assembled|].
  split; [by apply cells_argument_cases | by apply cells_argument_empty].
Qed.

End Effects.

Section ModelRead.
Context {host : Collaborators}.

Lemma metadata_with_nbformat_major json (data : NotebookData VSCCell) :
  metadata (with_nbformat json data) !! "nbformat" =
    if truthy (opt_get json "nbformat")
    then Some (opt_get json "nbformat")
    else metadata data !! "nbformat".
Proof.
  unfold with_nbformat.
  destruct (truthy (opt_get json "nbformat")), (truthy (opt_get json "nbformat_minor"));
    rewrite ?metadata_update_metadata, ?with_cons, ?with_nil;
    rewrite ?(lookup_insert_ne _ "nbformat_minor" "nbformat") by done;
    by rewrite ?lookup_insert_eq.
Qed.

Lemma metadata_with_nbformat_minor_or json (data : NotebookData VSCCell) :
  metadata (with_nbformat json data) !! "nbformat_minor" =
    if truthy (opt_get json "nbformat_minor")
    then Some (opt_get json "nbformat_minor")
    else metadata data !! "nbformat_minor".
Proof.
  unfold with_nbformat.
  destruct (truthy (opt_get json "nbformat")), (truthy (opt_get json "nbformat_minor"));
    rewrite ?metadata_update_metadata, ?with_cons, ?with_nil;
    rewrite ?lookup_insert_eq; try done;
    by rewrite (lookup_insert_ne _ "nbformat" "nbformat_minor").
Qed.

Lemma metadata_overlay_other (data : NotebookData VSCCell) indent id k :
  k ≠ "indentAmount" → k ≠ "__vsc_id" →
  metadata (update_metadata data [("indentAmount", indent); ("__vsc_id", id)]) !! k
    = metadata data !! k.
Proof.
  intros Hindent Hid.
  by rewrite metadata_update_metadata, !with_cons, with_nil, !lookup_insert_ne.
Qed.

(** X5: in a model that was not short-circuited, every metadata name other
    than [indentAmount], [__vsc_id], [nbformat] and [nbformat_minor] holds
    what the converter put there, and the cells are the converter's. *)
Theorem X5_converter_metadata_is_kept content json w k :
  parsed content = Some json →
  short_circuits json = false →
  (truthy json = true → sendLanguageTelemetry json = None) →
  k ≠ "indentAmount" → k ≠ "__vsc_id" → k ≠ "nbformat" → k ≠ "nbformat_minor" →
  ∃ d w',
    deserializeNotebook content w = (inr d, w')
    ∧ metadata d !! k = metadata (converted json) !! k
    ∧ cells d = cells (converted json).
Proof.
  intros Hparsed Hgo Htele Hindent Hid Hmajor Hminor.
  destruct (deserializeNotebook_returns content json w Hparsed Hgo Htele) as (w' & Hrun & _).
  eexists _, w'. split; [exact Hrun|]. split; [|apply cells_assembled].
  unfold assembled.
  rewrite metadata_with_nbformat_other by done.
  by apply metadata_overlay_other.
Qed.

(** X6: the schema version of the file is laid over the converter's metadata
    only where it is truthy: an [nbformat] or [nbformat_minor] that is missing
    or 0 leaves what the converter put under that name. *)
Theorem X6_falsy_schema_version_is_not_carried content json w :
  parsed content = Some json →
  short_circuits json = false →
  (truthy json = true → sendLanguageTelemetry json = None) →
  ∃ d w',
    deserializeNotebook content w = (inr d, w')
    ∧ metadata d !! "nbformat" =
        (if truthy (opt_get json "nbformat")
         then Some (opt_get json "nbformat")
         else metadata (converted json) !! "nbformat")
    ∧ metadata d !! "nbformat_minor" =
        (if truthy (opt_get json "nbformat_minor")
         then Some (opt_get json "nbformat_minor")
         else metadata (converted json) !! "nbformat_minor").
Proof.
  intros Hparsed Hgo Htele.
  destruct (deserializeNotebook_returns content json w Hparsed Hgo Htele) as (w' & Hrun & _).
  eexists _, w'. split; [exact Hrun|].
  unfold assembled.
  rewrite metadata_with_nbformat_major, metadata_with_nbformat_minor_or.
  rewrite !opt_get_ensure_blank_cell by done.
  by rewrite !metadata_overlay_other.
Qed.

(** X7: read and written back, a notebook whose [nbformat_minor] is missing
    or 0, with a converter that puts no [nbformat_minor] in the metadata,
    keeps its [nbformat] when that is truthy; an [nbformat] that is missing or
    0 comes out as what the converter put under [nbformat], and as 4 when it
    put nothing. *)
Theorem X7_nbformat_without_minor content json w :
  parsed content = Some json →
  truthy (get json "cells") = true →
  sendLanguageTelemetry json = None →
  truthy (get json "nbformat_minor") = false →
  metadata (converted json) !! "nbformat_minor" = None →
  ∃ d w',
    deserializeNotebook content w = (inr d, w')
    ∧ get (serialize_json (Data d)) "nbformat" =
        if truthy (get json "nbformat")
        then get json "nbformat"
        else match metadata (converted json) !! "nbformat" with
             | Some v => v
             | None => JNumber 4
             end.
Proof.
  intros Hparsed Hcells Htele Hminor Hconverter.
  destruct (truthy_cells_goes_on json Hcells) as [Hjson Hgo].
  destruct (truthy_cells_object json Hcells) as [fields ->].
  destruct (deserializeNotebook_returns content _ w Hparsed Hgo) as (w' & Hrun & _);
    [done|].
  eexists _, w'. split; [exact Hrun|].
  rewrite serialize_json_nbformat. simpl metadata_of.
  assert (metadata (assembled content (JObject fields) (uuid (uuid_drawn w)))
            !! "nbformat_minor" = None) as Hnone.
  { unfold assembled. rewrite metadata_with_nbformat_minor_or.
    rewrite opt_get_ensure_blank_cell by done.
    change (opt_get (JObject fields) "nbformat_minor")
      with (get (JObject fields) "nbformat_minor").
    rewrite Hminor. by rewrite metadata_overlay_other. }
  assert (metadata (assembled content (JObject fields) (uuid (uuid_drawn w))) !! "nbformat"
          = if truthy (get (JObject fields) "nbformat")
            then Some (get (JObject fields) "nbformat")
            else metadata (converted (JObject fields)) !! "nbformat") as Hm.
  { unfold assembled. rewrite metadata_with_nbformat_major.
    rewrite opt_get_ensure_blank_cell by done.
    change (opt_get (JObject fields) "nbformat") with (get (JObject fields) "nbformat").
    by rewrite metadata_overlay_other. }
  rewrite (proj2 (has_false _ _) Hnone).
  unfold has, prop. rewrite Hm.
  destruct (truthy (get (JObject fields) "nbformat")); [done|].
  by destruct (metadata (converted (JObject fields)) !! "nbformat").
Qed.

(** X8: read and written back, the cells of a notebook come out as they went
    in, except that an empty list of cells comes out as one blank code cell;
    this with a converter that maps cell by cell and cell converters that undo
    each other. *)
Theorem X8_cells_round_trip (toModel : string → JValue → VSCCell) content json items w :
  (∀ doc stored language original,
     cells (notebookModelToVSCNotebookData doc (JArray stored) language original)
       = map (toModel language) stored) →
  (∀ language cell,
     pruneCell (createJupyterCellFromVSCNotebookCell (toModel language cell)) = cell) →
  parsed content = Some json →
  get json "cells" = JArray items →
  sendLanguageTelemetry json = None →
  ∃ d w',
    deserializeNotebook content w = (inr d, w')
    ∧ get (serialize_json (Data d)) "cells" =
        JArray (match items with [] => [blank_code_cell] | _ => items end).
Proof.
  intros Hcellwise Hinverse Hparsed Hcells Htele.
  destruct (truthy_cells_goes_on json) as [Hjson Hgo]; [by rewrite Hcells|].
  destruct (deserializeNotebook_returns content json w Hparsed Hgo) as (w' & Hrun & _);
    [done|].
  eexists _, w'. split; [exact Hrun|].
  set (kept := match items with [] => [blank_code_cell] | _ => items end).
  assert (cells (assembled content json (uuid (uuid_drawn w)))
          = map (toModel (getPreferredLanguage (opt_get json "metadata"))) kept)
    as Hmodel.
  { rewrite cells_assembled. unfold converted.
    rewrite (cells_after_ensure json items Hcells).
    unfold or_else. simpl truthy. cbv iota. by rewrite Hcellwise. }
  rewrite serialize_json_cells. unfold serialized_cells. cbn [cells].
  rewrite Hmodel, !map_map. f_equal.
  rewrite <- (map_id kept) at 2.
  apply map_ext. intros cell. apply Hinverse.
Qed.

End ModelRead.

Section WriteThenRead.
Context {host : Collaborators}.

Lemma Buffer_round_trip text : Buffer_toString (Buffer_from text) = text.
Proof. apply string_of_list_byte_of_string. Qed.

Lemma parsed_written text json :
  nonempty text = true → JSON_parse text = Some json →
  parsed (Buffer_from text) = Some json.
Proof. intros Hne Hparse. unfold parsed. by rewrite Buffer_round_trip, Hne. Qed.

Lemma written_goes_on (data : Serializable VSCCell) :
  truthy (get (serialize_json data) "cells") = true.
Proof. by rewrite serialize_json_cells. Qed.

(** X10: whatever was written, reading it and writing it again gives
    [nbformat] 2: the [nbformat_minor] 2 of the first output lands in the
    [nbformat] of the second. This when [JSON.parse] reads back what
    [JSON.stringify] wrote and telemetry returns. *)
Theorem X10_second_write_has_nbformat_2 (data : Serializable VSCCell) w :
  nonempty (serialize data) = true →
  JSON_parse (serialize data) = Some (serialize_json data) →
  sendLanguageTelemetry (serialize_json data) = None →
  ∃ d w',
    deserializeNotebook (Buffer_from (serialize data)) w = (inr d, w')
    ∧ get (serialize_json (Data d)) "nbformat" = JNumber 2
    ∧ get (serialize_json (Data d)) "nbformat_minor" = JNumber 2.
Proof.
  intros Hne Hparse Htele.
  pose proof (parsed_written _ _ Hne Hparse) as Hparsed.
  destruct (truthy_cells_goes_on _ (written_goes_on data)) as [Hjson Hgo].
  destruct (deserializeNotebook_returns _ _ w Hparsed Hgo) as (w' & Hrun & _); [done|].
  eexists _, w'. split; [exact Hrun|].
  split; [|apply serialize_json_nbformat_minor].
  rewrite serialize_json_nbformat. simpl metadata_of.
  assert (opt_get (serialize_json data) "nbformat_minor" = JNumber 2) as Hminor.
  { destruct (serialize_json_fields data) as (version & -> & _). done. }
  pose proof (metadata_assembled_minor (Buffer_from (serialize data))
                (serialize_json data) (uuid (uuid_drawn w))) as Hm.
  rewrite Hminor in Hm. specialize (Hm eq_refl).
  rewrite (proj2 (has_true _ _) (mk_is_Some _ _ Hm)).
  by rewrite (prop_Some _ _ _ Hm).
Qed.

(** X11: a written notebook never reads back without a cell: the model has
    the written cells, or the blank code cell when none was written, each
    converted with the language preferred for the metadata [orig_nbformat = 4],
    the only metadata a written file has. This with a converter that maps
    cell by cell, when [JSON.parse] reads back what [JSON.stringify] wrote
    and telemetry returns. *)
Theorem X11_written_notebook_reads_back_with_a_cell
    (toModel : string → JValue → VSCCell) (data : Serializable VSCCell) w :
  (∀ doc stored language original,
     cells (notebookModelToVSCNotebookData doc (JArray stored) language original)
       = map (toModel language) stored) →
  nonempty (serialize data) = true →
  JSON_parse (serialize data) = Some (serialize_json data) →
  sendLanguageTelemetry (serialize_json data) = None →
  ∃ d w',
    deserializeNotebook (Buffer_from (serialize data)) w = (inr d, w')
    ∧ cells d =
        map (toModel (getPreferredLanguage (JObject [("orig_nbformat", JNumber 4)])))
            (match serialized_cells data with
             | [] => [blank_code_cell]
             | _ => serialized_cells data
             end)
    ∧ (1 ≤ length (cells d))%nat.
Proof.
  intros Hcellwise Hne Hparse Htele.
  pose proof (parsed_written _ _ Hne Hparse) as Hparsed.
  destruct (truthy_cells_goes_on _ (written_goes_on data)) as [Hjson Hgo].
  destruct (deserializeNotebook_returns _ _ w Hparsed Hgo) as (w' & Hrun & _); [done|].
  eexists _, w'. split; [exact Hrun|].
  assert (cells (assembled (Buffer_from (serialize data)) (serialize_json data)
                   (uuid (uuid_drawn w)))
          = map (toModel (getPreferredLanguage (JObject [("orig_nbformat", JNumber 4)])))
                (match serialized_cells data with
                 | [] => [blank_code_cell]
                 | _ => serialized_cells data
                 end)) as Hmodel.
  { rewrite cells_assembled. unfold converted.
    rewrite (cells_after_ensure _ _ (serialize_json_cells data)).
    unfold or_else. simpl truthy. cbv iota. rewrite Hcellwise.
    do 2 f_equal.
    destruct (serialize_json_fields data) as (version & -> & _). done. }
  split; [exact Hmodel|].
  rewrite Hmodel, length_map.
  destruct (serialized_cells data); simpl; lia.
Qed.

End WriteThenRead.

(** * The further properties on concrete files *)

Section MoreExamples.
Import Reference.

(** X4: [cells] that is an object with a [length] of 0. *)
Lemma X4_witness :
  ∃ d w,
    deserializeNotebook (host := quiet) cells_with_length start = (inr d, w)
    ∧ cells d = [to_cell "python" blank_code_cell]
    ∧ cells_argument cells_with_length_json = JArray [blank_code_cell].
Proof.
  destruct (X4_cells_handed_to_the_converter (host := quiet)
              cells_with_length cells_with_length_json start)
    as (d & w & Hrun & Hcells & Hargument & _); [vm_compute; reflexivity..|].
  exists d, w. split; [exact Hrun|].
  split; [|exact Hargument].
  rewrite Hcells, Hargument. reflexivity.
Defined.

(** X5: the notebook with one markdown cell keeps the converter's [custom]. *)
Lemma X5_witness :
  ∃ d w,
    deserializeNotebook (host := quiet) one_cell start = (inr d, w)
    ∧ metadata d !! "custom" = metadata (converted (host := quiet) one_cell_json) !! "custom"
    ∧ cells d = cells (converted (host := quiet) one_cell_json).
Proof.
  apply (X5_converter_metadata_is_kept (host := quiet) one_cell one_cell_json start "custom");
    solve [vm_compute; reflexivity | discriminate].
Defined.

(** X6: the notebook indented by four spaces has an [nbformat] and no
    [nbformat_minor]. *)
Lemma X6_witness :
  ∃ d w,
    deserializeNotebook (host := quiet) four_spaces start = (inr d, w)
    ∧ metadata d !! "nbformat" = Some (JNumber 4)
    ∧ metadata d !! "nbformat_minor" = None.
Proof.
  apply (X6_falsy_schema_version_is_not_carried (host := quiet)
           four_spaces four_spaces_json start);
    vm_compute; reflexivity.
Defined.

(** X7: the notebook whose [nbformat] is 0 is written back with 4. *)
Lemma X7_witness :
  ∃ d w,
    deserializeNotebook (host := quiet) zero_nbformat start = (inr d, w)
    ∧ get (serialize_json (host := quiet) (Data d)) "nbformat" = JNumber 4.
Proof.
  apply (X7_nbformat_without_minor (host := quiet) zero_nbformat zero_nbformat_json start);
    vm_compute; reflexivity.
Defined.

(** X8: the notebook with no cell is written back with the blank cell. *)
Lemma X8_witness :
  ∃ d w,
    deserializeNotebook (host := quiet) no_cell start = (inr d, w)
    ∧ get (serialize_json (host := quiet) (Data d)) "cells" = JArray [blank_code_cell].
Proof.
  apply (X8_cells_round_trip (host := quiet) to_cell no_cell no_cell_json [] start);
    [intros; reflexivity | intros; reflexivity | vm_compute; reflexivity..].
Defined.

(** X10: the model with two cells, written, read and written again. *)
Lemma X10_witness :
  ∃ d w,
    deserializeNotebook (host := quiet) (serializeNotebook (host := quiet) two_cells) start
      = (inr d, w)
    ∧ get (serialize_json (host := quiet) (Data d)) "nbformat" = JNumber 2
    ∧ get (serialize_json (host := quiet) (Data d)) "nbformat_minor" = JNumber 2.
Proof.
  apply (X10_second_write_has_nbformat_2 (host := quiet) (Data two_cells) start);
    vm_compute; reflexivity.
Defined.

(** X11: a model without cells, written and read. *)
Lemma X11_witness :
  ∃ d w,
    deserializeNotebook (host := quiet) (serializeNotebook (host := quiet) bare) start
      = (inr d, w)
    ∧ cells d = map (to_cell "python") [blank_code_cell]
    ∧ (1 ≤ length (cells d))%nat.
Proof.
  apply (X11_written_notebook_reads_back_with_a_cell (host := quiet) to_cell (Data bare) start);
    [intros; reflexivity | vm_compute; reflexivity..].
Defined.

End MoreExamples.
